(** * FilePerUserClientData: a shallow embedding and its properties

    Source: tensorflow_federated/python/simulation/file_per_user_client_data.py

    The Python class is embedded as a state-and-exception monad over a
    record holding the outside world, a ghost log of the calls made to
    Python callables, and the attributes of the one instance [self].
    Python exceptions are the [inl] results. *)

From Stdlib Require Import List String Ascii Bool Arith Lia.
Import ListNotations.
Local Open Scope string_scope.
Local Open Scope list_scope.

(** ** Python values the class receives *)

(** The value passed as [client_ids].  The constructor only accepts a
    [list]; the other shapes are here to be refused. *)
Inductive pyobj : Type :=
| PyList (items : list string)
| PyTuple (items : list string)
| PyNone.

(** [isinstance(o, list)]. *)
Definition is_list (o : pyobj) : bool :=
  match o with PyList _ => true | _ => false end.

(** Truth value of an object, as used by [if not client_ids]. *)
Definition truthy (o : pyobj) : bool :=
  match o with
  | PyList (_ :: _) | PyTuple (_ :: _) => true
  | _ => false
  end.

(** Container kinds that [nest] treats as sequences. *)
Inductive seq_kind : Type := KTuple | KList.

Definition seq_kind_eqb (a b : seq_kind) : bool :=
  match a, b with
  | KTuple, KTuple | KList, KList => true
  | _, _ => false
  end.

(** ** posixpath.join, for two components *)

Definition startswith_sep (s : string) : bool :=
  match s with
  | String c _ => Ascii.eqb c "/"
  | EmptyString => false
  end.

Fixpoint endswith_sep (s : string) : bool :=
  match s with
  | EmptyString => false
  | String c EmptyString => Ascii.eqb c "/"
  | String _ rest => endswith_sep rest
  end.

Definition os_path_join (a b : string) : string :=
  if startswith_sep b then b
  else if (String.eqb a "" || endswith_sep a)%bool then a ++ b
  else a ++ "/" ++ b.

(** ** A Python dict from names to paths, in insertion order *)

Definition dict : Type := list (string * string).

(** [d[k] = v]: an existing key keeps its place, a new key goes last. *)
Fixpoint dict_setitem (d : dict) (k v : string) : dict :=
  match d with
  | [] => [(k, v)]
  | (k', v') :: rest =>
      if String.eqb k' k then (k', v) :: rest
      else (k', v') :: dict_setitem rest k v
  end.

Fixpoint dict_lookup (d : dict) (k : string) : option string :=
  match d with
  | [] => None
  | (k', v) :: rest => if String.eqb k' k then Some v else dict_lookup rest k
  end.

Definition dict_keys (d : dict) : list string := map fst d.

(** [{filename: os.path.join(path, filename) for filename in names}]. *)
Definition paths_dict (path : string) (names : list string) : dict :=
  fold_left (fun d filename => dict_setitem d filename (os_path_join path filename))
            names [].

Section FilePerUserClientData.

(** [W] is the world outside the class (the file system, whatever the
    collaborators read or change); [E] the exceptions collaborators raise;
    [leaf] the descriptors at the leaves of [output_types] and
    [output_shapes] (a DType, a TensorShape); [payload] whatever else a
    dataset object holds. *)
Context {W E leaf payload : Type}.

(** Truth value of [x != y] on two leaves, as the leaves' own class
    defines it. *)
Variable leaf_ne : leaf -> leaf -> bool.

(** [os.listdir(path)]: the entry names of a directory, or the error the
    operating system reports. *)
Variable os_listdir : string -> W -> E + list string.

(** ** Nested structures, as tensorflow's [nest] module reads them *)

Inductive nest : Type :=
| Leaf (x : leaf)
| Seq (k : seq_kind) (items : list nest).

(** [nest.flatten]: the leaves, depth first, left to right. *)
Fixpoint flatten (n : nest) : list leaf :=
  match n with
  | Leaf x => [x]
  | Seq _ items => flat_map flatten items
  end.

(** The test behind [nest.assert_same_structure]: same container kind and
    arity at every position. *)
Fixpoint same_structure (a b : nest) : bool :=
  match a, b with
  | Leaf _, Leaf _ => true
  | Seq k1 l1, Seq k2 l2 =>
      seq_kind_eqb k1 k2 &&
      (fix all2 (xs ys : list nest) : bool :=
         match xs, ys with
         | [], [] => true
         | x :: xs', y :: ys' => same_structure x y && all2 xs' ys'
         | _, _ => false
         end) l1 l2
  | _, _ => false
  end.

(** A [tf.data.Dataset] object: the two properties the class reads and
    the rest. *)
Record dataset : Type := Dataset {
  contents : payload;
  output_types : nest;
  output_shapes : nest
}.

(** ** Callables *)

(** What can be passed where a callable is expected: an object that is
    not callable, collaborator code acting on the world, or the closure
    [lambda id: create_tf_dataset_fn(client_ids_to_paths_dict[id])] that
    [create_from_dir] builds. *)
Inductive pyfn : Type :=
| NotCallable
| Extern (f : string -> W -> (E + dataset) * W)
| LambdaById (client_ids_to_paths_dict : dict) (create_tf_dataset_fn : pyfn).

Definition callable (fn : pyfn) : bool :=
  match fn with NotCallable => false | _ => true end.

(** ** Exceptions *)

Inductive exn : Type :=
| TypeError_check_type          (* py_typecheck.check_type refuses the value *)
| ValueError_no_client_ids      (* line 45 *)
| TypeError_check_callable      (* py_typecheck.check_callable refuses the value *)
| TypeError_not_callable        (* calling an object that is not callable *)
| TypeError_not_subscriptable   (* indexing an object that has no items *)
| IndexError                    (* list index out of range *)
| AttributeError (name : string)
| KeyError (key : string)       (* dict lookup of a missing key *)
| StructureError                (* raised by nest.assert_same_structure *)
| ValueError_ne (x y : leaf) (id : string)   (* line 68 *)
| Raised (e : E).               (* whatever a collaborator raised *)

(** The errors the constructor raises about its own arguments. *)
Definition InvalidArgument (e : exn) : Prop :=
  e = TypeError_check_type \/ e = ValueError_no_client_ids \/ e = TypeError_check_callable.

(** The error of a failed leaf comparison, for some pair of leaves. *)
Definition ShapeMismatch (id : string) (e : exn) : Prop :=
  exists x y, e = ValueError_ne x y id.

(** ** State *)

(** The attributes of [self]; [None] while not yet assigned. *)
Record instance : Type := Instance {
  _client_ids : option pyobj;
  _create_tf_dataset_fn : option pyfn;
  _output_types : option nest;
  _output_shapes : option nest
}.

Definition fresh : instance := Instance None None None None.

Record state : Type := State {
  world : W;
  trace : list (pyfn * string);   (* ghost: every call of a callable, in order *)
  self : instance
}.

(** ** The monad *)

Definition M (A : Type) : Type := state -> (exn + A) * state.

Definition ret {A} (a : A) : M A := fun st => (inr a, st).

Definition raise {A} (e : exn) : M A := fun st => (inl e, st).

Definition bind {A B} (m : M A) (k : A -> M B) : M B :=
  fun st =>
    match m st with
    | (inl e, st') => (inl e, st')
    | (inr a, st') => k a st'
    end.

Notation "x <- m ;; k" := (bind m (fun x => k))
  (at level 61, m at next level, right associativity).
Notation "m ;;; k" := (bind m (fun _ => k))
  (at level 61, right associativity).

Definition lift {A} (r : exn + A) : M A := fun st => (r, st).

Definition getattr {A} (name : string) (proj : instance -> option A) : M A :=
  fun st =>
    match proj (self st) with
    | Some v => (inr v, st)
    | None => (inl (AttributeError name), st)
    end.

Definition setattr (upd : instance -> instance) : M unit :=
  fun st => (inr tt, State (world st) (trace st) (upd (self st))).

Definition set_client_ids (v : pyobj) (i : instance) : instance :=
  Instance (Some v) (_create_tf_dataset_fn i) (_output_types i) (_output_shapes i).

Definition set_create_tf_dataset_fn (v : pyfn) (i : instance) : instance :=
  Instance (_client_ids i) (Some v) (_output_types i) (_output_shapes i).

Definition set_output_types (v : nest) (i : instance) : instance :=
  Instance (_client_ids i) (_create_tf_dataset_fn i) (Some v) (_output_shapes i).

Definition set_output_shapes (v : nest) (i : instance) : instance :=
  Instance (_client_ids i) (_create_tf_dataset_fn i) (_output_types i) (Some v).

(** Ghost: record that [fn] was called on [arg]. *)
Definition log_call (fn : pyfn) (arg : string) : M unit :=
  fun st => (inr tt, State (world st) (trace st ++ [(fn, arg)]) (self st)).

(** Run collaborator code on the world. *)
Definition run_extern (f : string -> W -> (E + dataset) * W) (arg : string) : M dataset :=
  fun st =>
    let (r, w') := f arg (world st) in
    (match r with inl e => inl (Raised e) | inr ds => inr ds end,
     State w' (trace st) (self st)).

Definition dict_getitem (d : dict) (k : string) : exn + string :=
  match dict_lookup d k with
  | Some v => inr v
  | None => inl (KeyError k)
  end.

(** [fn(arg)]. *)
Fixpoint py_call (fn : pyfn) (arg : string) : M dataset :=
  match fn with
  | NotCallable => raise TypeError_not_callable
  | Extern f => log_call fn arg ;;; run_extern f arg
  | LambdaById d g =>
      log_call fn arg ;;;
      path <- lift (dict_getitem d arg) ;;
      py_call g path
  end.

(** [o[i]]. *)
Definition py_getitem (o : pyobj) (i : nat) : exn + string :=
  match o with
  | PyList items | PyTuple items =>
      match nth_error items i with
      | Some v => inr v
      | None => inl IndexError
      end
  | PyNone => inl TypeError_not_subscriptable
  end.

(** ** py_typecheck *)

(** Modelled from the spec: [py_typecheck.check_type(target, list)], whose
    module is not among the sources; the identifier collection must be a
    concrete list, and the check fails when it is of the wrong container
    kind. *)
Definition check_type_list (target : pyobj) : M unit :=
  if is_list target then ret tt else raise TypeError_check_type.

(** Modelled from the spec: [py_typecheck.check_callable(target)], whose
    module is not among the sources; the check fails when the conversion
    function is not callable. *)
Definition check_callable (target : pyfn) : M unit :=
  if callable target then ret tt else raise TypeError_check_callable.

(** ** The class *)

(** [__init__], lines 43 to 54.  Entering a fresh [tf.Graph] changes
    nothing this model holds. *)
Definition __init__ (client_ids : pyobj) (create_tf_dataset_fn : pyfn) : M unit :=
  check_type_list client_ids ;;;
  (if negb (truthy client_ids) then raise ValueError_no_client_ids else ret tt) ;;;
  check_callable create_tf_dataset_fn ;;;
  setattr (set_client_ids client_ids) ;;;
  setattr (set_create_tf_dataset_fn create_tf_dataset_fn) ;;;
  fn <- getattr "_create_tf_dataset_fn" _create_tf_dataset_fn ;;
  ids <- getattr "_client_ids" _client_ids ;;
  first <- lift (py_getitem ids 0) ;;
  tf_dataset <- py_call fn first ;;
  setattr (set_output_types (output_types tf_dataset)) ;;;
  setattr (set_output_shapes (output_shapes tf_dataset)).

(** [FilePerUserClientData(client_ids, create_tf_dataset_fn)]: a new
    object, then [__init__] on it. *)
Definition FilePerUserClientData (client_ids : pyobj) (create_tf_dataset_fn : pyfn) : M unit :=
  setattr (fun _ => fresh) ;;;
  __init__ client_ids create_tf_dataset_fn.

(** The properties [client_ids], [output_types] and [output_shapes]. *)
Definition client_ids : M pyobj := getattr "_client_ids" _client_ids.
Definition get_output_types : M nest := getattr "_output_types" _output_types.
Definition get_output_shapes : M nest := getattr "_output_shapes" _output_shapes.

(** The loop of lines 66 to 69 over [zip(flat_x, flat_y)]. *)
Fixpoint compare_leaves (client_id : string) (pairs : list (leaf * leaf)) : exn + unit :=
  match pairs with
  | [] => inr tt
  | (x, y) :: rest =>
      if leaf_ne x y then inl (ValueError_ne x y client_id)
      else compare_leaves client_id rest
  end.

Definition assert_same_structure (nested_x nested_y : nest) : exn + unit :=
  if same_structure nested_x nested_y then inr tt else inl StructureError.

(** [_assert_nested_equal], lines 62 to 69; [client_id] is the variable
    of the enclosing call that the inner function closes over. *)
Definition _assert_nested_equal (client_id : string) (nested_x nested_y : nest) : exn + unit :=
  match assert_same_structure nested_x nested_y with
  | inl e => inl e
  | inr _ =>
      let flat_x := flatten nested_x in
      let flat_y := flatten nested_y in
      compare_leaves client_id (combine flat_x flat_y)
  end.

(** [create_tf_dataset_for_client], lines 71 to 74. *)
Definition create_tf_dataset_for_client (client_id : string) : M dataset :=
  fn <- getattr "_create_tf_dataset_fn" _create_tf_dataset_fn ;;
  tf_dataset <- py_call fn client_id ;;
  types <- getattr "_output_types" _output_types ;;
  lift (_assert_nested_equal client_id (output_types tf_dataset) types) ;;;
  shapes <- getattr "_output_shapes" _output_shapes ;;
  lift (_assert_nested_equal client_id (output_shapes tf_dataset) shapes) ;;;
  ret tf_dataset.

(** [create_from_dir], lines 99 to 104. *)
Definition create_from_dir (path : string) (create_tf_dataset_fn : pyfn) : M unit :=
  names <- (fun st => (match os_listdir path (world st) with
                       | inl e => inl (Raised e)
                       | inr l => inr l
                       end, st)) ;;
  let client_ids_to_paths_dict := paths_dict path names in
  FilePerUserClientData
    (PyList (dict_keys client_ids_to_paths_dict))
    (LambdaById client_ids_to_paths_dict create_tf_dataset_fn).

(** ** What the claims speak of *)

(** Two descriptor trees match: same nesting, and no pair of leaves at
    the same position is unequal. *)
Definition structurally_equal (a b : nest) : Prop :=
  same_structure a b = true /\
  Forall2 (fun x y => leaf_ne x y = false) (flatten a) (flatten b).

(** Position [i] holds the first pair of leaves that [!=] tells apart. *)
Definition first_difference (xs ys : list leaf) (i : nat) (x y : leaf) : Prop :=
  nth_error xs i = Some x /\ nth_error ys i = Some y /\ leaf_ne x y = true /\
  forall j x' y', j < i -> nth_error xs j = Some x' -> nth_error ys j = Some y' ->
                  leaf_ne x' y' = false.

(** A callable whose outcome on [arg] does not depend on the state it is
    called in. *)
Definition deterministic (fn : pyfn) (arg : string) : Prop :=
  forall st st', fst (py_call fn arg st) = fst (py_call fn arg st').

(** Nesting depth of closures. *)
Fixpoint closure_depth (fn : pyfn) : nat :=
  match fn with
  | LambdaById _ g => S (closure_depth g)
  | _ => 0
  end.

(** ** Nested structures *)

Lemma nest_induction (P : nest -> Prop) :
  (forall x, P (Leaf x)) ->
  (forall k items, Forall P items -> P (Seq k items)) ->
  forall n, P n.
Proof.
  intros HLeaf HSeq.
  fix IH 1.
  intros [x | k items].
  - apply HLeaf.
  - apply HSeq. induction items as [| n items IHitems]; constructor.
    + apply IH.
    + exact IHitems.
Qed.

Lemma same_structure_length (a : nest) :
  forall b, same_structure a b = true -> List.length (flatten a) = List.length (flatten b).
Proof.
  induction a as [x | k items IH] using nest_induction; intros [y | k' items'] Hs;
    simpl in Hs; try discriminate; [reflexivity |].
  apply andb_prop in Hs. destruct Hs as [_ Hs]. simpl.
  revert items' Hs.
  induction IH as [| n items Hn _ IHitems]; intros [| n' items'] Hs;
    try discriminate; [reflexivity |].
  apply andb_prop in Hs. destruct Hs as [Hhd Htl]. simpl.
  rewrite !length_app. f_equal; [apply Hn, Hhd | apply IHitems, Htl].
Qed.

Lemma same_structure_refl (a : nest) : same_structure a a = true.
Proof.
  induction a as [x | k items IH] using nest_induction; simpl; [reflexivity |].
  apply andb_true_intro. split; [destruct k; reflexivity |].
  induction IH as [| n items Hn _ IHitems]; [reflexivity |].
  now rewrite Hn, IHitems.
Qed.

(** ** The comparison loop *)

Lemma compare_leaves_pass (id : string) (xs ys : list leaf) :
  Forall2 (fun x y => leaf_ne x y = false) xs ys ->
  compare_leaves id (combine xs ys) = inr tt.
Proof.
  induction 1 as [| x y xs ys Hxy _ IH]; simpl; [reflexivity |].
  now rewrite Hxy.
Qed.

Lemma compare_leaves_pass_inv (id : string) (xs : list leaf) :
  forall ys, List.length xs = List.length ys ->
  compare_leaves id (combine xs ys) = inr tt ->
  Forall2 (fun x y => leaf_ne x y = false) xs ys.
Proof.
  induction xs as [| x xs IH]; intros [| y ys] Hlen Hc; try discriminate; [constructor |].
  simpl in Hc. destruct (leaf_ne x y) eqn:Hxy; [discriminate |].
  constructor; [exact Hxy | apply IH; [now injection Hlen | exact Hc]].
Qed.

Lemma compare_leaves_first (id : string) (i : nat) :
  forall xs ys x y, first_difference xs ys i x y ->
  compare_leaves id (combine xs ys) = inl (ValueError_ne x y id).
Proof.
  induction i as [| i IH]; intros [| x0 xs] [| y0 ys] x y (Hx & Hy & Hne & Hlt);
    simpl in Hx, Hy; try discriminate.
  - injection Hx as ->. injection Hy as ->. simpl. now rewrite Hne.
  - simpl. rewrite (Hlt 0 x0 y0) by (reflexivity || lia).
    apply IH. repeat split; try assumption.
    intros j x' y' Hj Hx' Hy'. apply (Hlt (S j)); [lia | assumption | assumption].
Qed.

Lemma compare_leaves_fail (id : string) (xs : list leaf) :
  forall ys e, compare_leaves id (combine xs ys) = inl e ->
  exists i x y, e = ValueError_ne x y id /\ first_difference xs ys i x y.
Proof.
  induction xs as [| x xs IH]; intros [| y ys] e Hc; try discriminate.
  simpl in Hc. destruct (leaf_ne x y) eqn:Hxy.
  - injection Hc as <-. exists 0, x, y. repeat split; try assumption. intros; lia.
  - destruct (IH _ _ Hc) as (i & x1 & y1 & -> & Hx & Hy & Hne & Hlt).
    exists (S i), x1, y1. repeat split; try assumption.
    intros [| j] x' y' Hj Hx' Hy'; simpl in Hx', Hy'.
    + congruence.
    + apply (Hlt j); [lia | assumption | assumption].
Qed.

Lemma assert_nested_equal_pass (id : string) (a b : nest) :
  structurally_equal a b -> _assert_nested_equal id a b = inr tt.
Proof.
  intros [Hs Hl]. unfold _assert_nested_equal, assert_same_structure.
  rewrite Hs. now apply compare_leaves_pass.
Qed.

Lemma assert_nested_equal_pass_inv (id : string) (a b : nest) :
  _assert_nested_equal id a b = inr tt -> structurally_equal a b.
Proof.
  unfold _assert_nested_equal, assert_same_structure.
  destruct (same_structure a b) eqn:Hs; [| discriminate].
  intros Hc. split; [exact Hs |].
  apply (compare_leaves_pass_inv id); [now apply same_structure_length | exact Hc].
Qed.

Lemma structurally_equal_refl (a : nest) :
  (forall x, In x (flatten a) -> leaf_ne x x = false) -> structurally_equal a a.
Proof.
  intros Hirr. split; [apply same_structure_refl |].
  induction (flatten a) as [| x l IH]; constructor.
  - apply Hirr. now left.
  - apply IH. intros y Hy. apply Hirr. now right.
Qed.

(** ** The dict of names to paths *)

Lemma dict_lookup_setitem (d : dict) (k v k' : string) :
  dict_lookup (dict_setitem d k v) k' =
  if String.eqb k k' then Some v else dict_lookup d k'.
Proof.
  induction d as [| [k0 v0] d IH]; simpl.
  - reflexivity.
  - destruct (String.eqb k0 k) eqn:H0; simpl.
    + apply String.eqb_eq in H0. subst k0. now destruct (String.eqb k k').
    + rewrite IH. destruct (String.eqb k0 k') eqn:H1; [| reflexivity].
      apply String.eqb_eq in H1. subst k'.
      rewrite String.eqb_sym in H0. now rewrite H0.
Qed.

Lemma dict_keys_setitem_new (d : dict) (k v : string) :
  dict_lookup d k = None -> dict_keys (dict_setitem d k v) = dict_keys d ++ [k].
Proof.
  induction d as [| [k0 v0] d IH]; simpl; [reflexivity |].
  destruct (String.eqb k0 k); [discriminate |].
  intros H. simpl. f_equal. now apply IH.
Qed.

Lemma paths_fold_lookup_in (path : string) (names : list string) :
  forall d k, In k names ->
  dict_lookup
    (fold_left (fun d filename => dict_setitem d filename (os_path_join path filename)) names d) k
  = Some (os_path_join path k).
Proof.
  induction names as [| n names IH] using rev_ind; intros d k Hin; [destruct Hin |].
  rewrite fold_left_app. simpl. rewrite dict_lookup_setitem.
  destruct (String.eqb n k) eqn:Hnk.
  - apply String.eqb_eq in Hnk. now subst.
  - apply IH. apply in_app_or in Hin. destruct Hin as [H | [H | []]]; [exact H |].
    subst. now rewrite String.eqb_refl in Hnk.
Qed.

Lemma paths_fold_lookup_out (path : string) (names : list string) :
  forall d k, ~ In k names ->
  dict_lookup
    (fold_left (fun d filename => dict_setitem d filename (os_path_join path filename)) names d) k
  = dict_lookup d k.
Proof.
  induction names as [| n names IH]; intros d k Hout; [reflexivity |].
  simpl. rewrite IH by (intros H; apply Hout; now right).
  rewrite dict_lookup_setitem.
  destruct (String.eqb n k) eqn:Hnk; [| reflexivity].
  apply String.eqb_eq in Hnk. exfalso. apply Hout. now left.
Qed.

Lemma paths_fold_keys (path : string) (names : list string) :
  NoDup names ->
  forall d, (forall n, In n names -> dict_lookup d n = None) ->
  dict_keys
    (fold_left (fun d filename => dict_setitem d filename (os_path_join path filename)) names d)
  = dict_keys d ++ names.
Proof.
  induction 1 as [| n names Hn Hnd IH]; intros d Hd; simpl.
  - now rewrite app_nil_r.
  - rewrite IH.
    + rewrite dict_keys_setitem_new by (apply Hd; now left).
      now rewrite <- app_assoc.
    + intros m Hm. rewrite dict_lookup_setitem.
      destruct (String.eqb n m) eqn:Hnm.
      * apply String.eqb_eq in Hnm. subst. contradiction.
      * apply Hd. now right.
Qed.

Lemma paths_dict_lookup_in (path : string) (names : list string) (k : string) :
  In k names -> dict_lookup (paths_dict path names) k = Some (os_path_join path k).
Proof. apply paths_fold_lookup_in. Qed.

Lemma paths_dict_lookup_out (path : string) (names : list string) (k : string) :
  ~ In k names -> dict_lookup (paths_dict path names) k = None.
Proof. intros H. unfold paths_dict. now rewrite paths_fold_lookup_out. Qed.

Lemma paths_dict_keys (path : string) (names : list string) :
  NoDup names -> dict_keys (paths_dict path names) = names.
Proof.
  intros H. unfold paths_dict. now rewrite paths_fold_keys.
Qed.

(** ** Calling a callable *)

Ltac run :=
  unfold bind, ret, raise, lift, getattr, setattr, log_call, run_extern,
    check_type_list, check_callable; simpl.

Lemma py_call_self (fn : pyfn) :
  forall arg st, self (snd (py_call fn arg st)) = self st.
Proof.
  induction fn as [| f | d g IH]; intros arg st; simpl.
  - reflexivity.
  - run. now destruct (f arg (world st)) as [[e | ds] w'].
  - run. unfold dict_getitem. destruct (dict_lookup d arg) as [path |]; simpl.
    + now rewrite IH.
    + reflexivity.
Qed.

(** Every call leaves a record of itself, followed by the records of the
    calls made inside it, which are to callables nested more deeply. *)
Lemma py_call_trace (fn : pyfn) :
  forall arg st, callable fn = true ->
  exists inner,
    trace (snd (py_call fn arg st)) = trace st ++ (fn, arg) :: inner /\
    Forall (fun c => closure_depth (fst c) < closure_depth fn) inner.
Proof.
  induction fn as [| f | d g IH]; intros arg st Hc; [discriminate | |].
  - exists []. split; [| constructor]. simpl. run.
    now destruct (f arg (world st)) as [[e | ds] w'].
  - simpl. run. unfold dict_getitem.
    destruct (dict_lookup d arg) as [path |]; simpl.
    + destruct g as [| f | d' g'].
      * exists []. split; [reflexivity | constructor].
      * destruct (IH path (State (world st) (trace st ++ [(LambdaById d (Extern f), arg)]) (self st)) eq_refl)
          as (inner & Ht & Hd).
        exists ((Extern f, path) :: inner). split.
        -- rewrite Ht. simpl. now rewrite <- app_assoc.
        -- constructor; [simpl; lia |].
           eapply Forall_impl; [| exact Hd]. simpl. intros c Hlt. lia.
      * destruct (IH path (State (world st) (trace st ++ [(LambdaById d (LambdaById d' g'), arg)]) (self st)) eq_refl)
          as (inner & Ht & Hd).
        exists ((LambdaById d' g', path) :: inner). split.
        -- rewrite Ht. simpl. now rewrite <- app_assoc.
        -- constructor; [simpl; lia |].
           eapply Forall_impl; [| exact Hd]. simpl. intros c Hlt. lia.
    + exists []. split; [reflexivity | constructor].
Qed.

Lemma closure_depth_neq (g fn : pyfn) :
  closure_depth g < closure_depth fn -> g <> fn.
Proof. intros H ->. lia. Qed.

(** A call raises only what the interpreter or the collaborator raises. *)
Lemma py_call_raises (fn : pyfn) :
  forall arg st e, fst (py_call fn arg st) = inl e ->
  e = TypeError_not_callable \/ (exists k, e = KeyError k) \/ (exists e', e = Raised e').
Proof.
  induction fn as [| f | d g IH]; intros arg st e; simpl.
  - run. intros [= <-]. now left.
  - run. destruct (f arg (world st)) as [[e' | ds] w']; simpl; [| discriminate].
    intros [= <-]. right. right. now exists e'.
  - run. unfold dict_getitem. destruct (dict_lookup d arg) as [path |]; simpl.
    + apply IH.
    + intros [= <-]. right. left. now exists arg.
Qed.

(** ** Running the constructor and the accessor *)

(** With arguments that pass the three checks, the constructor is one
    call of the conversion function on the first identifier, followed by
    the two assignments of the reference. *)
Lemma construct_run (first : string) (items : list string) (fn : pyfn) (st0 : state) :
  callable fn = true ->
  FilePerUserClientData (PyList (first :: items)) fn st0 =
  match py_call fn first
          (State (world st0) (trace st0)
                 (Instance (Some (PyList (first :: items))) (Some fn) None None)) with
  | (inl e, st1) => (inl e, st1)
  | (inr ds, st1) =>
      (inr tt, State (world st1) (trace st1)
                     (Instance (Some (PyList (first :: items))) (Some fn)
                               (Some (output_types ds)) (Some (output_shapes ds))))
  end.
Proof.
  intros Hc. unfold FilePerUserClientData, __init__. run. rewrite Hc. simpl.
  pose proof (py_call_self fn first
    (State (world st0) (trace st0)
           (Instance (Some (PyList (first :: items))) (Some fn) None None))) as Hself.
  destruct (py_call fn first _) as [[e | ds] st1]; simpl in *; [reflexivity |].
  unfold set_output_shapes, set_output_types. simpl. now rewrite Hself.
Qed.

(** The accessor is one call of the stored conversion function, then the
    two comparisons, types first. *)
Lemma retrieve_run (id : string) (st : state) (o : option pyobj) (fn : pyfn)
      (oT oS : option nest) :
  self st = Instance o (Some fn) oT oS ->
  create_tf_dataset_for_client id st =
  match py_call fn id st with
  | (inl e, st1) => (inl e, st1)
  | (inr ds, st1) =>
      match oT with
      | None => (inl (AttributeError "_output_types"), st1)
      | Some T =>
          match _assert_nested_equal id (output_types ds) T with
          | inl e => (inl e, st1)
          | inr _ =>
              match oS with
              | None => (inl (AttributeError "_output_shapes"), st1)
              | Some Sh =>
                  match _assert_nested_equal id (output_shapes ds) Sh with
                  | inl e => (inl e, st1)
                  | inr _ => (inr ds, st1)
                  end
              end
          end
      end
  end.
Proof.
  intros Hself. unfold create_tf_dataset_for_client. run. rewrite Hself. simpl.
  pose proof (py_call_self fn id st) as Hkeep. rewrite Hself in Hkeep.
  destruct (py_call fn id st) as [[e | ds] st1]; simpl in *; [reflexivity |].
  rewrite Hkeep. simpl.
  destruct oT as [T |]; [| reflexivity].
  destruct (_assert_nested_equal id (output_types ds) T); simpl; [reflexivity |].
  rewrite Hkeep. simpl.
  destruct oS as [Sh |]; [| reflexivity].
  now destruct (_assert_nested_equal id (output_shapes ds) Sh).
Qed.

Lemma retrieve_state (id : string) (st : state) (fn : pyfn) :
  _create_tf_dataset_fn (self st) = Some fn ->
  snd (create_tf_dataset_for_client id st) = snd (py_call fn id st).
Proof.
  intros Hfn. destruct (self st) as [o ofn oT oS] eqn:Hself. simpl in Hfn. subst ofn.
  rewrite (retrieve_run id st _ _ _ _ Hself).
  destruct (py_call fn id st) as [[e | ds] st1]; [reflexivity |].
  destruct oT as [T |]; [| reflexivity].
  destruct (_assert_nested_equal id (output_types ds) T); [reflexivity |].
  destruct oS as [Sh |]; [| reflexivity].
  now destruct (_assert_nested_equal id (output_shapes ds) Sh).
Qed.


(** ** Properties of the constructor *)

(** C2: construction fails with an error about its arguments exactly
    when the identifier collection is not a list, or is the empty list, or
    the conversion function is not callable; with a non-empty list and a
    callable the three checks pass and both arguments are stored. *)
Theorem construction_argument_errors (o : pyobj) (fn : pyfn) (st : state) :
  ((exists e, fst (FilePerUserClientData o fn st) = inl e /\ InvalidArgument e) <->
   (is_list o = false \/ o = PyList [] \/ callable fn = false)) /\
  (forall first items, o = PyList (first :: items) -> callable fn = true ->
     _client_ids (self (snd (FilePerUserClientData o fn st))) = Some o /\
     _create_tf_dataset_fn (self (snd (FilePerUserClientData o fn st))) = Some fn).
Proof.
  split; [split |].
  - intros (e & He & Hinv).
    destruct o as [[| first items] | items |]; try (left; reflexivity).
    + right. now left.
    + destruct (callable fn) eqn:Hc; [| now right; right].
      exfalso. rewrite (construct_run first items fn st Hc) in He.
      pose proof (py_call_raises fn first
        (State (world st) (trace st)
               (Instance (Some (PyList (first :: items))) (Some fn) None None)) e) as Hr.
      destruct (py_call fn first _) as [[e' | ds] st1]; simpl in *; [| discriminate].
      injection He as ->.
      destruct (Hr eq_refl) as [-> | [[k ->] | [e' ->]]];
        destruct Hinv as [H | [H | H]]; discriminate.
  - intros [Hl | [-> | Hc]].
    + exists TypeError_check_type. split; [| now left].
      unfold FilePerUserClientData, __init__. run. now rewrite Hl.
    + exists ValueError_no_client_ids. split; [reflexivity | right; now left].
    + destruct o as [[| first items] | items |].
      * exists ValueError_no_client_ids. split; [reflexivity | right; now left].
      * exists TypeError_check_callable. split; [| right; now right].
        unfold FilePerUserClientData, __init__. run. now rewrite Hc.
      * exists TypeError_check_type. split; [reflexivity | now left].
      * exists TypeError_check_type. split; [reflexivity | now left].
  - intros first items -> Hc. rewrite (construct_run first items fn st Hc).
    pose proof (py_call_self fn first
      (State (world st) (trace st)
             (Instance (Some (PyList (first :: items))) (Some fn) None None))) as Hself.
    destruct (py_call fn first _) as [[e | ds] st1]; simpl in *.
    + now rewrite Hself.
    + now split.
Qed.

(** C3: with arguments that pass the checks, construction calls the
    conversion function once, on the first identifier; an error of that
    call is the error of the construction, unchanged; a dataset it returns
    gives the reference types and shapes, which the accessors then return
    without changing anything. *)
Theorem construction_probes_first_identifier
        (first : string) (items : list string) (fn : pyfn) (st0 : state) :
  callable fn = true ->
  let ids := PyList (first :: items) in
  let probing := State (world st0) (trace st0) (Instance (Some ids) (Some fn) None None) in
  (exists inner,
     trace (snd (FilePerUserClientData ids fn st0)) = trace st0 ++ (fn, first) :: inner /\
     Forall (fun c => fst c <> fn) inner) /\
  (forall e st1, py_call fn first probing = (inl e, st1) ->
     FilePerUserClientData ids fn st0 = (inl e, st1)) /\
  (forall ds st1, py_call fn first probing = (inr ds, st1) ->
     exists st2,
       FilePerUserClientData ids fn st0 = (inr tt, st2) /\
       world st2 = world st1 /\ trace st2 = trace st1 /\
       self st2 = Instance (Some ids) (Some fn)
                           (Some (output_types ds)) (Some (output_shapes ds)) /\
       client_ids st2 = (inr ids, st2) /\
       get_output_types st2 = (inr (output_types ds), st2) /\
       get_output_shapes st2 = (inr (output_shapes ds), st2)).
Proof.
  intros Hc ids probing. subst ids. rewrite (construct_run first items fn st0 Hc).
  fold probing. repeat split.
  - destruct (py_call_trace fn first probing Hc) as (inner & Ht & Hd).
    exists inner. split.
    + destruct (py_call fn first probing) as [[e | ds] st1]; exact Ht.
    + eapply Forall_impl; [| exact Hd]. intros c. apply closure_depth_neq.
  - intros e st1 ->. reflexivity.
  - intros ds st1 ->. eexists. split; [reflexivity |]. now repeat split.
Qed.

(** C9: the container-kind check comes before the emptiness check, so a
    value that is not a list, the empty tuple among them, is refused for its
    kind; the callable check comes before the probe, so a conversion
    function that is not callable is refused without any call being made. *)
Theorem argument_checks_in_order (fn : pyfn) (st : state) :
  (forall o, is_list o = false ->
     FilePerUserClientData o fn st =
     (inl TypeError_check_type, State (world st) (trace st) fresh)) /\
  FilePerUserClientData (PyTuple []) fn st =
    (inl TypeError_check_type, State (world st) (trace st) fresh) /\
  FilePerUserClientData (PyList []) NotCallable st =
    (inl ValueError_no_client_ids, State (world st) (trace st) fresh) /\
  (forall first items,
     FilePerUserClientData (PyList (first :: items)) NotCallable st =
     (inl TypeError_check_callable, State (world st) (trace st) fresh)).
Proof.
  repeat split.
  intros o Hl. unfold FilePerUserClientData, __init__. run. now rewrite Hl.
Qed.

(** ** Properties of the accessor *)

(** C1: whenever the conversion function returns, for an identifier, a
    dataset whose types and shapes match the reference, the accessor returns
    that very dataset; the stored identifier collection plays no part. *)
Theorem retrieval_returns_candidate
        (id : string) (st st1 : state) (o : option pyobj) (fn : pyfn)
        (T Sh : nest) (ds : dataset) :
  self st = Instance o (Some fn) (Some T) (Some Sh) ->
  py_call fn id st = (inr ds, st1) ->
  structurally_equal (output_types ds) T ->
  structurally_equal (output_shapes ds) Sh ->
  create_tf_dataset_for_client id st = (inr ds, st1).
Proof.
  intros Hself Hcall HT HS.
  rewrite (retrieve_run id st _ _ _ _ Hself), Hcall.
  now rewrite (assert_nested_equal_pass id _ _ HT), (assert_nested_equal_pass id _ _ HS).
Qed.

(** C4: when the candidate disagrees with the reference the accessor
    fails.  A difference of nesting is the structural failure; with the same
    nesting, the error carries the identifier and the pair of leaves at the
    first position where the flattened trees differ.  The types are looked
    at first, the shapes only when the types match.  Any disagreement ends
    in one of these two errors. *)
Theorem retrieval_reports_first_difference
        (id : string) (st st1 : state) (o : option pyobj) (fn : pyfn)
        (T Sh : nest) (ds : dataset) :
  self st = Instance o (Some fn) (Some T) (Some Sh) ->
  py_call fn id st = (inr ds, st1) ->
  (same_structure (output_types ds) T = false ->
     create_tf_dataset_for_client id st = (inl StructureError, st1)) /\
  (forall i x y,
     same_structure (output_types ds) T = true ->
     first_difference (flatten (output_types ds)) (flatten T) i x y ->
     create_tf_dataset_for_client id st = (inl (ValueError_ne x y id), st1)) /\
  (structurally_equal (output_types ds) T ->
   same_structure (output_shapes ds) Sh = false ->
     create_tf_dataset_for_client id st = (inl StructureError, st1)) /\
  (forall i x y,
     structurally_equal (output_types ds) T ->
     same_structure (output_shapes ds) Sh = true ->
     first_difference (flatten (output_shapes ds)) (flatten Sh) i x y ->
     create_tf_dataset_for_client id st = (inl (ValueError_ne x y id), st1)) /\
  (~ (structurally_equal (output_types ds) T /\ structurally_equal (output_shapes ds) Sh) ->
     exists e, create_tf_dataset_for_client id st = (inl e, st1) /\
               (e = StructureError \/ ShapeMismatch id e)) /\
  ~ ShapeMismatch id StructureError.
Proof.
  intros Hself Hcall.
  rewrite (retrieve_run id st _ _ _ _ Hself), Hcall.
  repeat split.
  - intros Hs. unfold _assert_nested_equal, assert_same_structure. now rewrite Hs.
  - intros i x y Hs Hd. unfold _assert_nested_equal, assert_same_structure.
    rewrite Hs. now rewrite (compare_leaves_first id i _ _ x y Hd).
  - intros HT Hs. rewrite (assert_nested_equal_pass id _ _ HT).
    unfold _assert_nested_equal, assert_same_structure. now rewrite Hs.
  - intros i x y HT Hs Hd. rewrite (assert_nested_equal_pass id _ _ HT).
    unfold _assert_nested_equal, assert_same_structure.
    rewrite Hs. now rewrite (compare_leaves_first id i _ _ x y Hd).
  - intros Hno.
    assert (Hfail : forall a b e, _assert_nested_equal id a b = inl e ->
                                  e = StructureError \/ ShapeMismatch id e).
    { intros a b e. unfold _assert_nested_equal, assert_same_structure.
      destruct (same_structure a b).
      - intros Hc. destruct (compare_leaves_fail id _ _ e Hc) as (i & x & y & -> & _).
        right. now exists x, y.
      - intros [= <-]. now left. }
    destruct (_assert_nested_equal id (output_types ds) T) as [e | []] eqn:HT.
    + exists e. split; [reflexivity | now apply (Hfail _ _ _ HT)].
    + destruct (_assert_nested_equal id (output_shapes ds) Sh) as [e | []] eqn:HS.
      * exists e. split; [reflexivity | now apply (Hfail _ _ _ HS)].
      * exfalso. apply Hno. split; now apply (assert_nested_equal_pass_inv id).
  - intros (x & y & H). discriminate.
Qed.

(** C10: the types are validated before the shapes.  When the types of
    the candidate fail the comparison, that failure is what the accessor
    raises, whatever the shapes of the candidate and whatever the reference
    shapes are, even unset; with the same nesting it is a mismatch between a
    leaf of the candidate's types and a leaf of the reference types. *)
Theorem retrieval_validates_types_first
        (id : string) (st st1 : state) (o : option pyobj) (fn : pyfn)
        (T : nest) (oS : option nest) (ds : dataset) (e : exn) :
  self st = Instance o (Some fn) (Some T) oS ->
  py_call fn id st = (inr ds, st1) ->
  _assert_nested_equal id (output_types ds) T = inl e ->
  create_tf_dataset_for_client id st = (inl e, st1) /\
  (same_structure (output_types ds) T = true ->
   exists i x y, e = ValueError_ne x y id /\
                 first_difference (flatten (output_types ds)) (flatten T) i x y).
Proof.
  intros Hself Hcall HT.
  rewrite (retrieve_run id st _ _ _ _ Hself), Hcall, HT. split; [reflexivity |].
  intros Hs. unfold _assert_nested_equal, assert_same_structure in HT.
  rewrite Hs in HT. now apply (compare_leaves_fail id).
Qed.



(** ** The directory factory *)

Lemma create_from_dir_listing (path : string) (g : pyfn) (st0 : state) (names : list string) :
  os_listdir path (world st0) = inr names ->
  create_from_dir path g st0 =
  FilePerUserClientData (PyList (dict_keys (paths_dict path names)))
                        (LambdaById (paths_dict path names) g) st0.
Proof.
  intros Hl. unfold create_from_dir, bind. now rewrite Hl.
Qed.

Lemma lambda_call (d : dict) (g : pyfn) (id path : string) (s : state) :
  dict_lookup d id = Some path ->
  py_call (LambdaById d g) id s =
  py_call g path (State (world s) (trace s ++ [(LambdaById d g, id)]) (self s)).
Proof.
  intros Hl. simpl. run. unfold dict_getitem. now rewrite Hl.
Qed.

Lemma create_from_dir_built (path : string) (g : pyfn) (st0 st : state) (names : list string) :
  os_listdir path (world st0) = inr names ->
  create_from_dir path g st0 = (inr tt, st) ->
  exists T Sh,
    self st = Instance (Some (PyList (dict_keys (paths_dict path names))))
                       (Some (LambdaById (paths_dict path names) g)) (Some T) (Some Sh).
Proof.
  intros Hl. rewrite (create_from_dir_listing path g st0 names Hl).
  destruct (dict_keys (paths_dict path names)) as [| first items]; [discriminate |].
  rewrite (construct_run first items (LambdaById (paths_dict path names) g) st0 eq_refl).
  destruct (py_call _ first _) as [[e | ds] st1]; [discriminate |].
  intros [= <-]. now exists (output_types ds), (output_shapes ds).
Qed.

(** C6: for a directory whose listing is [names], N distinct entry
    names, a factory call that returns has stored exactly those N names as
    the identifiers, and its conversion function sends each of them to the
    file constructor applied to the directory path joined with the name.
    It does return whenever the file constructor returns a dataset for the
    first entry.  On an empty directory the identifier list is empty and
    construction fails for that reason. *)
Theorem create_from_dir_identifiers (path : string) (g : pyfn) (st0 : state) :
  (os_listdir path (world st0) = inr [] ->
     create_from_dir path g st0 =
     (inl ValueError_no_client_ids, State (world st0) (trace st0) fresh)) /\
  (forall names st,
     os_listdir path (world st0) = inr names -> NoDup names ->
     create_from_dir path g st0 = (inr tt, st) ->
     let fn := LambdaById (paths_dict path names) g in
     (exists ids, _client_ids (self st) = Some (PyList ids) /\
                  List.length ids = List.length names /\
                  forall n, In n ids <-> In n names) /\
     _create_tf_dataset_fn (self st) = Some fn /\
     forall n s, In n names ->
       py_call fn n s =
       py_call g (os_path_join path n)
               (State (world s) (trace s ++ [(fn, n)]) (self s))) /\
  (forall first rest ds st1,
     os_listdir path (world st0) = inr (first :: rest) -> NoDup (first :: rest) ->
     let fn := LambdaById (paths_dict path (first :: rest)) g in
     py_call g (os_path_join path first)
             (State (world st0) (trace st0 ++ [(fn, first)])
                    (Instance (Some (PyList (first :: rest))) (Some fn) None None))
     = (inr ds, st1) ->
     create_from_dir path g st0 =
     (inr tt, State (world st1) (trace st1)
                    (Instance (Some (PyList (first :: rest))) (Some fn)
                              (Some (output_types ds)) (Some (output_shapes ds))))).
Proof.
  split; [| split].
  - intros Hl. now rewrite (create_from_dir_listing path g st0 [] Hl).
  - intros names st Hl Hnd Hrun fn.
    destruct (create_from_dir_built path g st0 st names Hl Hrun) as (T & Sh & Hself).
    rewrite (paths_dict_keys path names Hnd) in Hself. rewrite Hself. simpl.
    split; [| split].
    + exists names. now repeat split.
    + reflexivity.
    + intros n s Hin. apply lambda_call. now apply paths_dict_lookup_in.
  - intros first rest ds st1 Hl Hnd fn Hprobe. subst fn.
    rewrite (create_from_dir_listing path g st0 _ Hl).
    rewrite (paths_dict_keys path _ Hnd).
    rewrite (construct_run first rest (LambdaById (paths_dict path (first :: rest)) g)
                           st0 eq_refl).
    rewrite (lambda_call _ g first (os_path_join path first)).
    + simpl world. simpl trace. simpl self. now rewrite Hprobe.
    + apply paths_dict_lookup_in. now left.
Qed.

(** C8: on an adapter built by the factory, retrieving an identifier that
    is not one of the listed names raises the lookup error of the
    name-to-path dict: the closure has been entered, the file constructor
    has not been called, the world is as it was. *)
Theorem directory_adapter_unknown_identifier
        (path : string) (g : pyfn) (st0 st : state) (names : list string) (id : string) :
  os_listdir path (world st0) = inr names ->
  create_from_dir path g st0 = (inr tt, st) ->
  ~ In id names ->
  forall st', self st' = self st ->
  create_tf_dataset_for_client id st' =
  (inl (KeyError id),
   State (world st') (trace st' ++ [(LambdaById (paths_dict path names) g, id)]) (self st')).
Proof.
  intros Hl Hrun Hout st' Hsame.
  destruct (create_from_dir_built path g st0 st names Hl Hrun) as (T & Sh & Hself).
  rewrite <- Hsame in Hself.
  rewrite (retrieve_run id st' _ _ _ _ Hself). simpl. run.
  unfold dict_getitem. now rewrite (paths_dict_lookup_out path names id Hout).
Qed.

(** ** Further properties of the accessor *)

Lemma construct_success (first : string) (items : list string) (fn : pyfn) (st0 st : state) :
  FilePerUserClientData (PyList (first :: items)) fn st0 = (inr tt, st) ->
  callable fn = true /\
  exists ds st1,
    py_call fn first
            (State (world st0) (trace st0)
                   (Instance (Some (PyList (first :: items))) (Some fn) None None))
    = (inr ds, st1) /\
    st = State (world st1) (trace st1)
               (Instance (Some (PyList (first :: items))) (Some fn)
                         (Some (output_types ds)) (Some (output_shapes ds))).
Proof.
  intros Hrun. destruct (callable fn) eqn:Hc.
  - split; [reflexivity |]. rewrite (construct_run first items fn st0 Hc) in Hrun.
    destruct (py_call fn first _) as [[e | ds] st1]; [discriminate |].
    injection Hrun as <-. now exists ds, st1.
  - exfalso. unfold FilePerUserClientData, __init__ in Hrun. revert Hrun. run.
    rewrite Hc. discriminate.
Qed.

(** A list compared with itself: either no leaf is unequal to itself, or
    there is a first one that is. *)
Lemma self_comparison (l : list leaf) :
  Forall (fun x => leaf_ne x x = false) l \/
  exists i x, first_difference l l i x x.
Proof.
  induction l as [| a l IH].
  - left. constructor.
  - destruct (leaf_ne a a) eqn:Ha.
    + right. exists 0, a. repeat split; try assumption. intros; lia.
    + destruct IH as [Hall | (i & x & Hx & Hy & Hne & Hlt)].
      * left. now constructor.
      * right. exists (S i), x. repeat split; try assumption.
        intros [| j] x' y' Hj Hx' Hy'; simpl in Hx', Hy'.
        -- congruence.
        -- apply (Hlt j); [lia | assumption | assumption].
Qed.

Lemma Forall_self_match (l : list leaf) :
  Forall (fun x => leaf_ne x x = false) l ->
  Forall2 (fun x y => leaf_ne x y = false) l l.
Proof. induction 1; constructor; assumption. Qed.

(** X1: a dataset that the accessor returns is the one the conversion
    function produced in that call, and it has passed both comparisons:
    its types and its shapes match the reference. *)
Theorem retrieval_result_is_validated
        (id : string) (st st1 : state) (o : option pyobj) (fn : pyfn)
        (T Sh : nest) (ds : dataset) :
  self st = Instance o (Some fn) (Some T) (Some Sh) ->
  create_tf_dataset_for_client id st = (inr ds, st1) ->
  py_call fn id st = (inr ds, st1) /\
  structurally_equal (output_types ds) T /\
  structurally_equal (output_shapes ds) Sh.
Proof.
  intros Hself. rewrite (retrieve_run id st _ _ _ _ Hself).
  destruct (py_call fn id st) as [[e | ds'] st1']; [discriminate |].
  destruct (_assert_nested_equal id (output_types ds') T) as [e | []] eqn:HT; [discriminate |].
  destruct (_assert_nested_equal id (output_shapes ds') Sh) as [e | []] eqn:HS; [discriminate |].
  intros [= <- <-]. repeat split; try now apply (assert_nested_equal_pass_inv id).
Qed.

(** X2: after a successful construction, with a conversion function that
    is deterministic on the first identifier and leaves none of which is
    unequal to itself, retrieving the first identifier succeeds, and the
    dataset it returns carries the reference types and shapes. *)
Theorem probed_client_is_retrievable
        (first : string) (items : list string) (fn : pyfn) (st0 st : state) :
  FilePerUserClientData (PyList (first :: items)) fn st0 = (inr tt, st) ->
  deterministic fn first ->
  (forall x, leaf_ne x x = false) ->
  exists ds,
    fst (create_tf_dataset_for_client first st) = inr ds /\
    _output_types (self st) = Some (output_types ds) /\
    _output_shapes (self st) = Some (output_shapes ds).
Proof.
  intros Hrun Hdet Hirr.
  destruct (construct_success first items fn st0 st Hrun) as (_ & ds & st1 & Hprobe & ->).
  exists ds. split; [| now split].
  erewrite retrieve_run; [| reflexivity].
  match goal with
  | |- context [py_call fn first ?s] =>
      pose proof (Hdet s (State (world st0) (trace st0)
                            (Instance (Some (PyList (first :: items))) (Some fn) None None)))
        as Hsame;
      destruct (py_call fn first s) as [r st2]
  end.
  rewrite Hprobe in Hsame. simpl in Hsame. subst r.
  rewrite !assert_nested_equal_pass; [reflexivity | |];
    apply structurally_equal_refl; intros x _; apply Hirr.
Qed.

(** X3: the comparison uses the leaves' own inequality and nothing else.
    After a successful construction with a conversion function that is
    deterministic on the first identifier, if some leaf of the reference is
    unequal to itself then retrieving the first identifier fails with a
    mismatch of such a leaf against itself. *)
Theorem self_unequal_leaf_rejects_probed_client
        (first : string) (items : list string) (fn : pyfn) (st0 st : state)
        (T Sh : nest) :
  FilePerUserClientData (PyList (first :: items)) fn st0 = (inr tt, st) ->
  deterministic fn first ->
  _output_types (self st) = Some T ->
  _output_shapes (self st) = Some Sh ->
  Exists (fun x => leaf_ne x x = true) (flatten T ++ flatten Sh) ->
  exists x, leaf_ne x x = true /\
            fst (create_tf_dataset_for_client first st) = inl (ValueError_ne x x first).
Proof.
  intros Hrun Hdet HT HS Hex.
  destruct (construct_success first items fn st0 st Hrun) as (_ & ds & st1 & Hprobe & ->).
  simpl in HT, HS. injection HT as <-. injection HS as <-.
  erewrite retrieve_run; [| reflexivity].
  match goal with
  | |- context [py_call fn first ?s] =>
      pose proof (Hdet s (State (world st0) (trace st0)
                            (Instance (Some (PyList (first :: items))) (Some fn) None None)))
        as Hsame;
      destruct (py_call fn first s) as [r st2]
  end.
  rewrite Hprobe in Hsame. simpl in Hsame. subst r.
  unfold _assert_nested_equal, assert_same_structure. rewrite !same_structure_refl.
  destruct (self_comparison (flatten (output_types ds))) as [Hall | (i & x & Hd)].
  - rewrite (compare_leaves_pass first _ _ (Forall_self_match _ Hall)).
    destruct (self_comparison (flatten (output_shapes ds))) as [Hall' | (i & x & Hd)].
    + exfalso. rewrite Exists_exists in Hex. destruct Hex as (x & Hin & Hx).
      rewrite Forall_forall in Hall, Hall'.
      apply in_app_or in Hin.
      destruct Hin as [Hin | Hin];
        [rewrite (Hall x Hin) in Hx | rewrite (Hall' x Hin) in Hx]; discriminate.
    + exists x. rewrite (compare_leaves_first first i _ _ x x Hd).
      split; [apply Hd | reflexivity].
  - exists x. rewrite (compare_leaves_first first i _ _ x x Hd).
    split; [apply Hd | reflexivity].
Qed.

(** X6: a leaf mismatch raised by the accessor always names the
    identifier that was asked for; the conversion function had returned a
    dataset, and the two leaves are the first differing pair of the types,
    or, the types matching, of the shapes. *)
Theorem mismatch_names_requested_client
        (id id' : string) (st : state) (o : option pyobj) (fn : pyfn)
        (T Sh : nest) (x y : leaf) :
  self st = Instance o (Some fn) (Some T) (Some Sh) ->
  fst (create_tf_dataset_for_client id st) = inl (ValueError_ne x y id') ->
  id' = id /\
  exists ds st1 i,
    py_call fn id st = (inr ds, st1) /\
    (first_difference (flatten (output_types ds)) (flatten T) i x y \/
     (structurally_equal (output_types ds) T /\
      first_difference (flatten (output_shapes ds)) (flatten Sh) i x y)).
Proof.
  intros Hself. rewrite (retrieve_run id st _ _ _ _ Hself).
  pose proof (py_call_raises fn id st) as Hraise.
  destruct (py_call fn id st) as [[e | ds] st1]; simpl.
  - intros [= ->]. destruct (Hraise _ eq_refl) as [H | [[k H] | [e' H]]]; discriminate.
  - assert (Hfail : forall a b, _assert_nested_equal id a b = inl (ValueError_ne x y id') ->
                                id' = id /\ exists i, first_difference (flatten a) (flatten b) i x y).
    { intros a b. unfold _assert_nested_equal, assert_same_structure.
      destruct (same_structure a b); [| discriminate].
      intros Hc. destruct (compare_leaves_fail id _ _ _ Hc) as (i & x1 & y1 & Heq & Hd).
      injection Heq as -> -> ->. split; [reflexivity | now exists i]. }
    destruct (_assert_nested_equal id (output_types ds) T) as [e | []] eqn:HT; simpl.
    + intros [= ->]. destruct (Hfail _ _ HT) as (-> & i & Hd).
      split; [reflexivity |]. exists ds, st1, i. split; [reflexivity | now left].
    + destruct (_assert_nested_equal id (output_shapes ds) Sh) as [e | []] eqn:HS; simpl;
        [| discriminate].
      intros [= ->]. destruct (Hfail _ _ HS) as (-> & i & Hd).
      split; [reflexivity |]. exists ds, st1, i. split; [reflexivity |].
      right. split; [now apply (assert_nested_equal_pass_inv id) | exact Hd].
Qed.

(** ** Further properties of the directory factory *)

Lemma dict_keys_setitem_in (d : dict) (k v k' : string) :
  In k' (dict_keys (dict_setitem d k v)) <-> k' = k \/ In k' (dict_keys d).
Proof.
  induction d as [| [k0 v0] d IH]; simpl.
  - split; [intros [H | []]; now left | intros [H | []]; now left].
  - destruct (String.eqb k0 k) eqn:H0; simpl.
    + apply String.eqb_eq in H0. subst k0. split; [now right | intros [-> | H]; [now left | exact H]].
    + rewrite IH. tauto.
Qed.

Lemma dict_keys_setitem_nodup (d : dict) (k v : string) :
  NoDup (dict_keys d) -> NoDup (dict_keys (dict_setitem d k v)).
Proof.
  induction d as [| [k0 v0] d IH]; simpl; intros Hnd.
  - constructor; [intros [] | constructor].
  - destruct (String.eqb k0 k) eqn:H0; simpl; [exact Hnd |].
    inversion Hnd as [| ? ? Hout Hrest]; subst.
    constructor; [| now apply IH].
    rewrite dict_keys_setitem_in. intros [-> | Hin]; [| contradiction].
    now rewrite String.eqb_refl in H0.
Qed.

Lemma paths_fold_keys_set (path : string) (names : list string) :
  forall d, NoDup (dict_keys d) ->
  let d' := fold_left (fun d filename => dict_setitem d filename (os_path_join path filename))
                      names d in
  NoDup (dict_keys d') /\
  forall n, In n (dict_keys d') <-> In n (dict_keys d) \/ In n names.
Proof.
  induction names as [| a names IH]; intros d Hnd; simpl.
  - split; [exact Hnd | intros n; tauto].
  - destruct (IH (dict_setitem d a (os_path_join path a))
                 (dict_keys_setitem_nodup d a _ Hnd)) as [Hnd' Hin'].
    split; [exact Hnd' |].
    intros n. rewrite Hin', dict_keys_setitem_in. split.
    + intros [[-> | H] | H]; [right; now left | now left | right; now right].
    + intros [H | [<- | H]]; [left; now right | left; now left | now right].
Qed.

(** The first name listed is the first key, whatever follows. *)
Lemma paths_fold_keys_head (path : string) (names : list string) :
  forall d k0 tl0, dict_keys d = k0 :: tl0 ->
  exists tl,
    dict_keys (fold_left (fun d filename => dict_setitem d filename (os_path_join path filename))
                         names d) = k0 :: tl.
Proof.
  induction names as [| a names IH]; intros d k0 tl0 Hd; simpl.
  - now exists tl0.
  - destruct d as [| [k1 v1] d]; [discriminate |].
    simpl in Hd. injection Hd as -> <-.
    apply (IH _ k0 (dict_keys (if String.eqb k0 a then d else dict_setitem d a (os_path_join path a)))).
    simpl. now destruct (String.eqb k0 a).
Qed.

Lemma paths_dict_keys_head (path first : string) (rest : list string) :
  exists tl, dict_keys (paths_dict path (first :: rest)) = first :: tl.
Proof.
  unfold paths_dict. simpl. now apply (paths_fold_keys_head path rest _ first []).
Qed.

Lemma append_cancel (a x y : string) : (a ++ x)%string = (a ++ y)%string -> x = y.
Proof.
  induction a as [| c a IH]; simpl; [trivial |].
  intros [= H]. now apply IH.
Qed.

Lemma os_path_join_injective (path n1 n2 : string) :
  startswith_sep n1 = false -> startswith_sep n2 = false ->
  os_path_join path n1 = os_path_join path n2 -> n1 = n2.
Proof.
  unfold os_path_join. intros -> ->.
  destruct (String.eqb path "" || endswith_sep path)%bool; intros H.
  - now apply append_cancel in H.
  - apply append_cancel in H. now apply (append_cancel "/") in H.
Qed.

(** X4: whatever the listing, repeated names included, the identifiers a
    factory-built adapter stores are pairwise distinct and are exactly the
    names that occur in the listing. *)
Theorem create_from_dir_identifiers_unique
        (path : string) (g : pyfn) (st0 st : state) (names : list string) :
  os_listdir path (world st0) = inr names ->
  create_from_dir path g st0 = (inr tt, st) ->
  exists ids,
    _client_ids (self st) = Some (PyList ids) /\
    NoDup ids /\
    forall n, In n ids <-> In n names.
Proof.
  intros Hl Hrun.
  destruct (create_from_dir_built path g st0 st names Hl Hrun) as (T & Sh & Hself).
  exists (dict_keys (paths_dict path names)). rewrite Hself. split; [reflexivity |].
  destruct (paths_fold_keys_set path names [] (NoDup_nil _)) as [Hnd Hin].
  split; [exact Hnd |].
  intros n. unfold paths_dict. rewrite Hin. simpl. tauto.
Qed.

(** X5: two entry names that the name-to-path dict sends to the same
    path are the same name, provided neither starts with the separator (no
    entry name of a directory does). *)
Theorem distinct_entries_distinct_paths
        (path : string) (names : list string) (n1 n2 p : string) :
  startswith_sep n1 = false -> startswith_sep n2 = false ->
  dict_lookup (paths_dict path names) n1 = Some p ->
  dict_lookup (paths_dict path names) n2 = Some p ->
  n1 = n2.
Proof.
  intros H1 H2 L1 L2.
  assert (Hin : forall n q, dict_lookup (paths_dict path names) n = Some q ->
                            q = os_path_join path n).
  { intros n q Hq. destruct (in_dec string_dec n names) as [Hn | Hn].
    - rewrite (paths_dict_lookup_in path names n Hn) in Hq. now injection Hq.
    - rewrite (paths_dict_lookup_out path names n Hn) in Hq. discriminate. }
  apply (os_path_join_injective path n1 n2 H1 H2).
  now rewrite <- (Hin n1 p L1), <- (Hin n2 p L2).
Qed.

(** X7: building an adapter from a non-empty listing reads one file
    only: the closure is called on the first name listed, the file
    constructor on that name's path, and nothing else is called; the world
    is what that one call leaves, and an error of it is the error of the
    factory. *)
Theorem create_from_dir_reads_first_entry
        (path : string) (f : string -> W -> (E + dataset) * W) (st0 : state)
        (first : string) (rest : list string) :
  os_listdir path (world st0) = inr (first :: rest) ->
  let fn := LambdaById (paths_dict path (first :: rest)) (Extern f) in
  let out := f (os_path_join path first) (world st0) in
  trace (snd (create_from_dir path (Extern f) st0)) =
    trace st0 ++ [(fn, first); (Extern f, os_path_join path first)] /\
  world (snd (create_from_dir path (Extern f) st0)) = snd out /\
  fst (create_from_dir path (Extern f) st0) =
    match fst out with
    | inl e => inl (Raised e)
    | inr _ => inr tt
    end.
Proof.
  intros Hl fn out. subst fn out.
  rewrite (create_from_dir_listing path (Extern f) st0 _ Hl).
  destruct (paths_dict_keys_head path first rest) as (tl & ->).
  rewrite (construct_run first tl (LambdaById (paths_dict path (first :: rest)) (Extern f))
                         st0 eq_refl).
  rewrite (lambda_call _ (Extern f) first (os_path_join path first))
    by (apply paths_dict_lookup_in; now left).
  simpl. run.
  destruct (f (os_path_join path first) (world st0)) as [[e | ds] w']; simpl;
    rewrite <- app_assoc; now repeat split.
Qed.

(** X8: the factory wraps the file constructor in a closure, so the
    callable check of the constructor cannot refuse it.  A file constructor
    that is not callable fails only when the closure calls it, with the
    interpreter's error and not an argument error, after the closure has
    been entered for the first name and without touching the world. *)
Theorem create_from_dir_not_callable
        (path : string) (st0 : state) (first : string) (rest : list string) :
  os_listdir path (world st0) = inr (first :: rest) ->
  fst (create_from_dir path NotCallable st0) = inl TypeError_not_callable /\
  ~ InvalidArgument TypeError_not_callable /\
  trace (snd (create_from_dir path NotCallable st0)) =
    trace st0 ++ [(LambdaById (paths_dict path (first :: rest)) NotCallable, first)] /\
  world (snd (create_from_dir path NotCallable st0)) = world st0.
Proof.
  intros Hl.
  rewrite (create_from_dir_listing path NotCallable st0 _ Hl).
  destruct (paths_dict_keys_head path first rest) as (tl & ->).
  rewrite (construct_run first tl (LambdaById (paths_dict path (first :: rest)) NotCallable)
                         st0 eq_refl).
  rewrite (lambda_call _ NotCallable first (os_path_join path first))
    by (apply paths_dict_lookup_in; now left).
  simpl. repeat split. intros [H | [H | H]]; discriminate.
Qed.

(** When the directory cannot be listed the factory raises the
    listing's error as it is, and nothing has happened: no object is set
    up, nothing is called, the world is untouched. *)
Theorem create_from_dir_listing_error
        (path : string) (g : pyfn) (st0 : state) (e : E) :
  os_listdir path (world st0) = inl e ->
  create_from_dir path g st0 = (inl (Raised e), st0).
Proof.
  intros Hl. unfold create_from_dir, bind. now rewrite Hl.
Qed.

(** X9: on a factory-built adapter, retrieving a listed name reads that
    name's file and no other: the closure is called on the name, the file
    constructor on its path; an error of the file constructor is the error
    of the retrieval, and a dataset that matches the reference is returned
    as it is. *)
Theorem directory_adapter_reads_named_file
        (path : string) (f : string -> W -> (E + dataset) * W) (st0 st st' : state)
        (names : list string) (n : string) :
  os_listdir path (world st0) = inr names ->
  create_from_dir path (Extern f) st0 = (inr tt, st) ->
  In n names ->
  self st' = self st ->
  let fn := LambdaById (paths_dict path names) (Extern f) in
  let out := f (os_path_join path n) (world st') in
  trace (snd (create_tf_dataset_for_client n st')) =
    trace st' ++ [(fn, n); (Extern f, os_path_join path n)] /\
  world (snd (create_tf_dataset_for_client n st')) = snd out /\
  (forall e, fst out = inl e ->
     fst (create_tf_dataset_for_client n st') = inl (Raised e)) /\
  (forall ds T Sh,
     fst out = inr ds ->
     _output_types (self st) = Some T -> _output_shapes (self st) = Some Sh ->
     structurally_equal (output_types ds) T ->
     structurally_equal (output_shapes ds) Sh ->
     fst (create_tf_dataset_for_client n st') = inr ds).
Proof.
  intros Hl Hrun Hin Hsame fn out. subst fn out.
  destruct (create_from_dir_built path (Extern f) st0 st names Hl Hrun) as (T0 & Sh0 & Hself).
  assert (Hcall : py_call (LambdaById (paths_dict path names) (Extern f)) n st' =
                  (match fst (f (os_path_join path n) (world st')) with
                   | inl e => inl (Raised e)
                   | inr ds => inr ds
                   end,
                   State (snd (f (os_path_join path n) (world st')))
                         (trace st' ++ [(LambdaById (paths_dict path names) (Extern f), n);
                                        (Extern f, os_path_join path n)])
                         (self st'))).
  { rewrite (lambda_call _ (Extern f) n (os_path_join path n))
      by now apply paths_dict_lookup_in.
    simpl. run. destruct (f (os_path_join path n) (world st')) as [r w']. simpl.
    now rewrite <- app_assoc. }
  assert (Hfn : _create_tf_dataset_fn (self st') =
                Some (LambdaById (paths_dict path names) (Extern f)))
    by now rewrite Hsame, Hself.
  rewrite (retrieve_state n st' _ Hfn), Hcall. simpl.
  split; [reflexivity | split; [reflexivity | split]].
  - intros e He. rewrite <- Hsame in Hself.
    rewrite (retrieve_run n st' _ _ _ _ Hself), Hcall, He. reflexivity.
  - intros ds T Sh Hds HT HS HmT HmS. rewrite Hself in HT, HS. simpl in HT, HS.
    injection HT as ->. injection HS as ->. rewrite <- Hsame in Hself.
    rewrite (retrieve_run n st' _ _ _ _ Hself), Hcall, Hds.
    now rewrite (assert_nested_equal_pass n _ _ HmT), (assert_nested_equal_pass n _ _ HmS).
Qed.

End FilePerUserClientData.

(** * A concrete scenario

    Descriptors with structural inequality, a world that counts the files
    read, a directory [data] with the entries [a.rec] and [b.rec], and an
    empty directory [empty]. *)

Module Scenario.

Inductive descr : Type :=
| DType (code : nat)
| TensorShape (dims : list nat).

Fixpoint dims_eqb (a b : list nat) : bool :=
  match a, b with
  | [], [] => true
  | x :: a', y :: b' => Nat.eqb x y && dims_eqb a' b'
  | _, _ => false
  end.

Definition descr_ne (x y : descr) : bool :=
  match x, y with
  | DType a, DType b => negb (Nat.eqb a b)
  | TensorShape a, TensorShape b => negb (dims_eqb a b)
  | _, _ => true
  end.

Definition int32 : @nest descr := Leaf (DType 3).
Definition scalar : @nest descr := Leaf (TensorShape []).
Definition vector1 : @nest descr := Leaf (TensorShape [1]).

(** A file constructor: [a.rec] holds scalars, [b.rec] vectors of one. *)
Definition read_records (path : string) (w : nat)
  : (string + @dataset descr string) * nat :=
  if String.eqb path "data/a.rec" then (inr (Dataset path int32 scalar), S w)
  else if String.eqb path "data/b.rec" then (inr (Dataset path int32 vector1), S w)
  else (inl "ENOENT", w).

Definition listdir (path : string) (w : nat) : string + list string :=
  if String.eqb path "data" then inr ["a.rec"; "b.rec"]
  else if String.eqb path "empty" then inr []
  else inl "ENOENT".

(** A conversion function with the same signature for every identifier. *)
Definition uniform (id : string) (w : nat)
  : (string + @dataset descr string) * nat :=
  (inr (Dataset id (Seq KTuple [int32; Leaf (DType 1)]) (Seq KTuple [scalar; vector1])),
   S w).

(** A conversion function whose types and shapes both change with the
    identifier. *)
Definition varying (id : string) (w : nat)
  : (string + @dataset descr string) * nat :=
  if String.eqb id "u1" then (inr (Dataset id int32 scalar), S w)
  else (inr (Dataset id (Leaf (DType 1)) vector1), S w).

Definition start : @state nat string descr string := State 0 [] fresh.

Definition uniform_adapter : @state nat string descr string :=
  snd (FilePerUserClientData (PyList ["u1"; "u2"]) (Extern uniform) start).

Definition varying_adapter : @state nat string descr string :=
  snd (FilePerUserClientData (PyList ["u1"; "u2"]) (Extern varying) start).

Definition data_adapter : @state nat string descr string :=
  snd (create_from_dir listdir "data" (Extern read_records) start).

Definition data_lambda : @pyfn nat string descr string :=
  LambdaById (paths_dict "data" ["a.rec"; "b.rec"]) (Extern read_records).

Example data_paths :
  paths_dict "data" ["a.rec"; "b.rec"] = [("a.rec", "data/a.rec"); ("b.rec", "data/b.rec")].
Proof. reflexivity. Qed.

Example join_cases :
  os_path_join "data/" "a.rec" = "data/a.rec" /\
  os_path_join "" "a.rec" = "a.rec" /\
  os_path_join "data" "/abs" = "/abs".
Proof. repeat split. Qed.

Example data_adapter_built :
  create_from_dir listdir "data" (Extern read_records) start =
  (inr tt,
   State 1 [(data_lambda, "a.rec"); (Extern read_records, "data/a.rec")]
         (Instance (Some (PyList ["a.rec"; "b.rec"])) (Some data_lambda)
                   (Some int32) (Some scalar))).
Proof. reflexivity. Qed.

Example retrieve_a :
  fst (create_tf_dataset_for_client descr_ne "a.rec" data_adapter) =
  inr (Dataset "data/a.rec" int32 scalar).
Proof. reflexivity. Qed.

Example retrieve_b :
  fst (create_tf_dataset_for_client descr_ne "b.rec" data_adapter) =
  inl (ValueError_ne (TensorShape [1]) (TensorShape []) "b.rec").
Proof. reflexivity. Qed.

Example missing_directory :
  fst (create_from_dir listdir "nowhere" (Extern read_records) start) = inl (Raised "ENOENT").
Proof. reflexivity. Qed.

(** ** The theorems at work on the scenario *)

(** An identifier that is not in the stored collection is served like
    any other. *)
Lemma retrieval_returns_candidate_witness :
  create_tf_dataset_for_client descr_ne "stranger" uniform_adapter =
  (inr (Dataset "stranger" (Seq KTuple [int32; Leaf (DType 1)])
                (Seq KTuple [scalar; vector1])),
   State 2 [(Extern uniform, "u1"); (Extern uniform, "stranger")] (self uniform_adapter)).
Proof.
  apply (retrieval_returns_candidate descr_ne "stranger" uniform_adapter _
           (Some (PyList ["u1"; "u2"])) (Extern uniform)
           (Seq KTuple [int32; Leaf (DType 1)]) (Seq KTuple [scalar; vector1])).
  - reflexivity.
  - reflexivity.
  - split; [reflexivity | repeat constructor].
  - split; [reflexivity | repeat constructor].
Defined.

Lemma construction_argument_errors_witness :
  _client_ids (self (snd (FilePerUserClientData (PyList ["u1"; "u2"]) (Extern uniform) start)))
  = Some (PyList ["u1"; "u2"]) /\
  _create_tf_dataset_fn
    (self (snd (FilePerUserClientData (PyList ["u1"; "u2"]) (Extern uniform) start)))
  = Some (Extern uniform).
Proof.
  exact (proj2 (construction_argument_errors (leaf := descr) (PyList ["u1"; "u2"])
                  (Extern uniform) start)
               "u1" ["u2"] eq_refl eq_refl).
Defined.

Lemma construction_probes_first_identifier_witness :
  exists st2,
    FilePerUserClientData (PyList ["u1"; "u2"]) (Extern uniform) start = (inr tt, st2) /\
    trace st2 = [(Extern uniform, "u1")] /\
    get_output_types st2 = (inr (Seq KTuple [int32; Leaf (DType 1)]), st2) /\
    get_output_shapes st2 = (inr (Seq KTuple [scalar; vector1]), st2).
Proof.
  destruct (construction_probes_first_identifier (leaf := descr) "u1" ["u2"]
              (Extern uniform) start eq_refl) as (_ & _ & Hok).
  destruct (Hok _ _ eq_refl) as (st2 & Hrun & _ & Htrace & _ & _ & Htypes & Hshapes).
  exists st2. repeat split; assumption.
Defined.

Lemma retrieval_reports_first_difference_witness :
  create_tf_dataset_for_client descr_ne "b.rec" data_adapter =
  (inl (ValueError_ne (TensorShape [1]) (TensorShape []) "b.rec"),
   State 2 [(data_lambda, "a.rec"); (Extern read_records, "data/a.rec");
            (data_lambda, "b.rec"); (Extern read_records, "data/b.rec")]
         (self data_adapter)).
Proof.
  destruct (retrieval_reports_first_difference descr_ne "b.rec" data_adapter
              (State 2 [(data_lambda, "a.rec"); (Extern read_records, "data/a.rec");
                        (data_lambda, "b.rec"); (Extern read_records, "data/b.rec")]
                     (self data_adapter))
              (Some (PyList ["a.rec"; "b.rec"])) data_lambda int32 scalar
              (Dataset "data/b.rec" int32 vector1) eq_refl eq_refl)
    as (_ & _ & _ & Hshape & _).
  apply (Hshape 0).
  - split; [reflexivity | repeat constructor].
  - reflexivity.
  - repeat split. intros j x' y' Hj. lia.
Defined.

Lemma retrieval_validates_types_first_witness :
  create_tf_dataset_for_client descr_ne "u2" varying_adapter =
  (inl (ValueError_ne (DType 1) (DType 3) "u2"),
   State 2 [(Extern varying, "u1"); (Extern varying, "u2")] (self varying_adapter)).
Proof.
  apply (retrieval_validates_types_first descr_ne "u2" varying_adapter _
           (Some (PyList ["u1"; "u2"])) (Extern varying) int32 (Some scalar)
           (Dataset "u2" (Leaf (DType 1)) vector1)).
  - reflexivity.
  - reflexivity.
  - reflexivity.
Defined.

Lemma uniform_deterministic (id : string) : deterministic (Extern uniform) id.
Proof. intros st st'. reflexivity. Qed.


Lemma data_names_distinct : NoDup ["a.rec"; "b.rec"].
Proof.
  constructor.
  - intros [H | []]. discriminate.
  - constructor; [intros [] | constructor].
Qed.

Lemma create_from_dir_identifiers_witness :
  create_from_dir listdir "empty" (Extern read_records) start =
    (inl ValueError_no_client_ids, start) /\
  (exists ids, _client_ids (self data_adapter) = Some (PyList ids) /\
               List.length ids = 2 /\
               forall n, In n ids <-> In n ["a.rec"; "b.rec"]) /\
  (forall s, py_call data_lambda "b.rec" s =
             py_call (Extern read_records) "data/b.rec"
                     (State (world s) (trace s ++ [(data_lambda, "b.rec")]) (self s))) /\
  fst (create_from_dir listdir "data" (Extern read_records) start) = inr tt.
Proof.
  destruct (create_from_dir_identifiers (leaf := descr) listdir "data" (Extern read_records) start)
    as (_ & Hbuilt & Htotal).
  destruct (Hbuilt ["a.rec"; "b.rec"] data_adapter eq_refl data_names_distinct eq_refl)
    as (Hids & _ & Hfn).
  split; [| split; [exact Hids | split]].
  - exact (proj1 (create_from_dir_identifiers (leaf := descr) listdir "empty"
                    (Extern read_records) start) eq_refl).
  - intros s. apply Hfn. right. now left.
  - rewrite (Htotal "a.rec" ["b.rec"] _ _ eq_refl data_names_distinct eq_refl). reflexivity.
Defined.

Lemma directory_adapter_unknown_identifier_witness :
  create_tf_dataset_for_client descr_ne "c.rec" data_adapter =
  (inl (KeyError "c.rec"),
   State 1 [(data_lambda, "a.rec"); (Extern read_records, "data/a.rec"); (data_lambda, "c.rec")]
         (self data_adapter)).
Proof.
  apply (directory_adapter_unknown_identifier descr_ne listdir "data" (Extern read_records)
           start data_adapter ["a.rec"; "b.rec"] "c.rec" eq_refl eq_refl).
  - intros [H | [H | []]]; discriminate.
  - reflexivity.
Defined.

Lemma argument_checks_in_order_witness :
  FilePerUserClientData (PyTuple ["u1"]) (Extern uniform) start =
    (inl TypeError_check_type, start) /\
  FilePerUserClientData (PyTuple []) (Extern uniform) start =
    (inl TypeError_check_type, start) /\
  FilePerUserClientData (PyList ["u1"]) (@NotCallable nat string descr string) start =
    (inl TypeError_check_callable, start).
Proof.
  destruct (argument_checks_in_order (leaf := descr) (Extern uniform) start)
    as (Hkind & Hempty & _ & _).
  destruct (argument_checks_in_order (leaf := descr) (@NotCallable nat string descr string) start)
    as (_ & _ & _ & Hcall).
  split; [exact (Hkind (PyTuple ["u1"]) eq_refl) | split; [exact Hempty | exact (Hcall "u1" [])]].
Defined.

(** ** Further properties at work on the scenario *)

(** A listing that names an entry twice. *)
Definition listdir_twice (path : string) (w : nat) : string + list string :=
  if String.eqb path "data" then inr ["a.rec"; "b.rec"; "a.rec"] else inl "ENOENT".

(** Dimensions whose unknown value compares unequal to everything, itself
    included. *)
Definition dim_ne (x y : option nat) : bool :=
  match x, y with
  | Some a, Some b => negb (Nat.eqb a b)
  | _, _ => true
  end.

(** The same signature for every identifier, with one unknown dimension. *)
Definition ragged (id : string) (w : nat)
  : (string + @dataset (option nat) string) * nat :=
  (inr (Dataset id (Leaf (Some 3)) (Seq KList [Leaf (Some 2); Leaf None])), S w).

Definition ragged_adapter : @state nat string (option nat) string :=
  snd (FilePerUserClientData (PyList ["u1"; "u2"]) (Extern ragged) (State 0 [] fresh)).

Lemma retrieval_result_is_validated_witness :
  py_call data_lambda "a.rec" data_adapter =
    (inr (Dataset "data/a.rec" int32 scalar),
     State 2 [(data_lambda, "a.rec"); (Extern read_records, "data/a.rec");
              (data_lambda, "a.rec"); (Extern read_records, "data/a.rec")]
           (self data_adapter)) /\
  structurally_equal descr_ne int32 int32 /\
  structurally_equal descr_ne scalar scalar.
Proof.
  exact (retrieval_result_is_validated descr_ne "a.rec" data_adapter _
           (Some (PyList ["a.rec"; "b.rec"])) data_lambda int32 scalar
           (Dataset "data/a.rec" int32 scalar) eq_refl eq_refl).
Defined.

Lemma descr_ne_irreflexive (x : descr) : descr_ne x x = false.
Proof.
  destruct x as [code | dims]; simpl.
  - now rewrite Nat.eqb_refl.
  - induction dims as [| d dims IH]; [reflexivity |].
    simpl. rewrite Nat.eqb_refl. exact IH.
Qed.

Lemma probed_client_is_retrievable_witness :
  exists ds,
    fst (create_tf_dataset_for_client descr_ne "u1" uniform_adapter) = inr ds /\
    _output_types (self uniform_adapter) = Some (output_types ds) /\
    _output_shapes (self uniform_adapter) = Some (output_shapes ds).
Proof.
  exact (probed_client_is_retrievable descr_ne "u1" ["u2"] (Extern uniform) start
           uniform_adapter eq_refl (uniform_deterministic "u1") descr_ne_irreflexive).
Defined.

Lemma ragged_deterministic (id : string) : deterministic (Extern ragged) id.
Proof. intros st st'. reflexivity. Qed.

Lemma self_unequal_leaf_rejects_probed_client_witness :
  exists x, dim_ne x x = true /\
            fst (create_tf_dataset_for_client dim_ne "u1" ragged_adapter) =
            inl (ValueError_ne x x "u1").
Proof.
  apply (self_unequal_leaf_rejects_probed_client dim_ne "u1" ["u2"] (Extern ragged)
           (State 0 [] fresh) ragged_adapter
           (Leaf (Some 3)) (Seq KList [Leaf (Some 2); Leaf None])).
  - reflexivity.
  - apply ragged_deterministic.
  - reflexivity.
  - reflexivity.
  - apply Exists_exists. exists None. split; [simpl; tauto | reflexivity].
Defined.

Lemma mismatch_names_requested_client_witness :
  "b.rec" = "b.rec" /\
  exists ds st1 i,
    py_call data_lambda "b.rec" data_adapter = (inr ds, st1) /\
    (first_difference descr_ne (flatten (output_types ds)) (flatten int32) i
                      (TensorShape [1]) (TensorShape []) \/
     (structurally_equal descr_ne (output_types ds) int32 /\
      first_difference descr_ne (flatten (output_shapes ds)) (flatten scalar) i
                       (TensorShape [1]) (TensorShape []))).
Proof.
  exact (mismatch_names_requested_client descr_ne "b.rec" "b.rec" data_adapter
           (Some (PyList ["a.rec"; "b.rec"])) data_lambda int32 scalar
           (TensorShape [1]) (TensorShape []) eq_refl eq_refl).
Defined.

Lemma create_from_dir_identifiers_unique_witness :
  exists ids,
    _client_ids (self (snd (create_from_dir listdir_twice "data" (Extern read_records) start)))
    = Some (PyList ids) /\
    NoDup ids /\
    forall n, In n ids <-> In n ["a.rec"; "b.rec"; "a.rec"].
Proof.
  exact (create_from_dir_identifiers_unique (leaf := descr) listdir_twice "data"
           (Extern read_records) start
           (snd (create_from_dir listdir_twice "data" (Extern read_records) start))
           ["a.rec"; "b.rec"; "a.rec"] eq_refl eq_refl).
Defined.

Lemma distinct_entries_distinct_paths_witness : "b.rec" = "b.rec".
Proof.
  exact (distinct_entries_distinct_paths "data" ["a.rec"; "b.rec"] "b.rec" "b.rec"
           "data/b.rec" eq_refl eq_refl eq_refl eq_refl).
Defined.

Lemma create_from_dir_reads_first_entry_witness :
  trace (snd (create_from_dir listdir "data" (Extern read_records) start)) =
    [(data_lambda, "a.rec"); (Extern read_records, "data/a.rec")] /\
  world (snd (create_from_dir listdir "data" (Extern read_records) start)) = 1 /\
  fst (create_from_dir listdir "data" (Extern read_records) start) = inr tt.
Proof.
  exact (create_from_dir_reads_first_entry (leaf := descr) listdir "data" read_records start
           "a.rec" ["b.rec"] eq_refl).
Defined.

Lemma create_from_dir_not_callable_witness :
  fst (create_from_dir (leaf := descr) (payload := string) listdir "data" NotCallable start)
    = inl TypeError_not_callable /\
  trace (snd (create_from_dir (leaf := descr) (payload := string) listdir "data" NotCallable start))
    = [(LambdaById (paths_dict "data" ["a.rec"; "b.rec"]) NotCallable, "a.rec")].
Proof.
  destruct (create_from_dir_not_callable (leaf := descr) (payload := string) listdir "data"
              start "a.rec" ["b.rec"] eq_refl) as (Herr & _ & Htrace & _).
  split; [exact Herr | exact Htrace].
Defined.

Lemma create_from_dir_listing_error_witness :
  create_from_dir listdir "nowhere" (Extern read_records) start = (inl (Raised "ENOENT"), start).
Proof.
  exact (create_from_dir_listing_error (leaf := descr) listdir "nowhere"
           (Extern read_records) start "ENOENT" eq_refl).
Defined.

Lemma directory_adapter_reads_named_file_witness :
  trace (snd (create_tf_dataset_for_client descr_ne "a.rec" data_adapter)) =
    trace data_adapter ++ [(data_lambda, "a.rec"); (Extern read_records, "data/a.rec")] /\
  world (snd (create_tf_dataset_for_client descr_ne "a.rec" data_adapter)) = 2 /\
  fst (create_tf_dataset_for_client descr_ne "a.rec" data_adapter) =
    inr (Dataset "data/a.rec" int32 scalar).
Proof.
  destruct (directory_adapter_reads_named_file descr_ne listdir "data" read_records
              start data_adapter data_adapter ["a.rec"; "b.rec"] "a.rec"
              eq_refl eq_refl (or_introl eq_refl) eq_refl)
    as (Htrace & Hworld & _ & Hok).
  split; [exact Htrace | split; [exact Hworld |]].
  apply (Hok (Dataset "data/a.rec" int32 scalar) int32 scalar); try reflexivity;
    (split; [reflexivity | repeat constructor]).
Defined.

End Scenario.
